(** * visualize.py: a shallow embedding and its properties

    The script reads [battleship_results.csv], splits the [average_shots]
    column by the [strategy] label, draws a bar chart and a box plot, and
    prints three pooled two-sample t-tests.

    Model choices:
    - a float64 value is [num]: a real number or one of the IEEE special
      values [PInf], [NInf], [NaN]; finite arithmetic is exact (no rounding,
      no signed zero);
    - the pandas data frame is a header plus rows of cells, typed one
      column at a time: a column is numeric when all its fields read as
      numbers, otherwise it holds strings;
    - the library routines whose internals are out of reach (the CSV
      tokenizer and the reading of a field as a number, the Student t CDF
      [scipy.special.stdtr] and its normal limit, and Python's float
      formatting) are section variables;
    - the program is a state and exception monad over a world holding the
      file system, the console and the current pyplot figure. *)

From Stdlib Require Import Reals Lra List String Bool Arith Lia Permutation.
Import ListNotations.

Local Open Scope R_scope.

(** ** float64 values *)

Inductive num : Type :=
| Fin (x : R)
| PInf
| NInf
| NaN.

Definition nneg (a : num) : num :=
  match a with
  | Fin x => Fin (- x)
  | PInf => NInf
  | NInf => PInf
  | NaN => NaN
  end.

Definition nadd (a b : num) : num :=
  match a, b with
  | Fin x, Fin y => Fin (x + y)
  | NaN, _ | _, NaN => NaN
  | PInf, NInf | NInf, PInf => NaN
  | PInf, _ | _, PInf => PInf
  | NInf, _ | _, NInf => NInf
  end.

Definition nsub (a b : num) : num := nadd a (nneg b).

(** the sign of a non-zero finite factor applied to an infinity *)
Definition scale_inf (x : R) (i : num) : num :=
  if Req_EM_T x 0 then NaN else if Rlt_dec 0 x then i else nneg i.

Definition nmul (a b : num) : num :=
  match a, b with
  | Fin x, Fin y => Fin (x * y)
  | NaN, _ | _, NaN => NaN
  | Fin x, i | i, Fin x => scale_inf x i
  | PInf, PInf | NInf, NInf => PInf
  | _, _ => NInf
  end.

Definition ndiv (a b : num) : num :=
  match a, b with
  | NaN, _ | _, NaN => NaN
  | Fin x, Fin y =>
      if Req_EM_T y 0 then
        (if Req_EM_T x 0 then NaN else if Rlt_dec 0 x then PInf else NInf)
      else Fin (x / y)
  | Fin _, _ => Fin 0
  | i, Fin y => if Req_EM_T y 0 then i else scale_inf y i
  | _, _ => NaN
  end.

Definition nsqrt (a : num) : num :=
  match a with
  | Fin x => if Rlt_dec x 0 then NaN else Fin (sqrt x)
  | PInf => PInf
  | NInf => NaN
  | NaN => NaN
  end.

Definition nabs (a : num) : num :=
  match a with
  | Fin x => Fin (Rabs x)
  | NInf => PInf
  | i => i
  end.

Definition isnan (a : num) : bool :=
  match a with NaN => true | _ => false end.

(** ** numpy reductions over a float64 array *)

Definition sum_R (xs : list R) : R := fold_right Rplus 0 xs.

(** [np.mean]: [umr_sum(arr) / n]; an empty array gives [0/0 = nan]. *)
Definition np_mean (xs : list R) : num :=
  ndiv (Fin (sum_R xs)) (Fin (INR (List.length xs))).

(** [np.var(arr, ddof)]: squared deviations from the mean, summed and
    divided by [max(n - ddof, 0)]. *)
Definition np_var (ddof : nat) (xs : list R) : num :=
  let arrmean := np_mean xs in
  let x := fold_right
             (fun v acc => nadd (nmul (nsub (Fin v) arrmean) (nsub (Fin v) arrmean)) acc)
             (Fin 0) xs in
  ndiv x (Fin (INR (List.length xs - ddof))).

(** [np.std(arr, ddof)] is the square root of [np.var(arr, ddof)]. *)
Definition np_std (ddof : nat) (xs : list R) : num := nsqrt (np_var ddof xs).

(** ** the program and the libraries it calls *)

(** Python exceptions that can reach the top level of the script. *)
Inductive exn : Type :=
| FileNotFoundError (path : string)
| ParserError
| UnicodeDecodeError
| KeyError (key : string)
| TypeError.

(** A cell of a loaded table: a string or a float64. *)
Inductive value : Type :=
| VStr (s : string)
| VNum (x : R).

(** A pandas [DataFrame] read from a CSV file: the header and the rows, each
    row holding one cell per column. *)
Record DataFrame : Type := mkDataFrame
  { columns : list string;
    rows : list (list value) }.

(** What pandas' CSV tokenizer yields: the header and the rows of raw
    fields, one per column. *)
Definition raw_table : Type := (list string * list (list string))%type.

(** [alternative=] of [scipy.stats.ttest_ind]. *)
Inductive alternative : Type := TwoSided | Less | Greater.

(** Format specifications used in the f-strings: [.4f] and [.4e]. *)
Inductive fmt : Type :=
| FmtF (precision : nat)
| FmtE (precision : nat).

(** What a pyplot figure holds. *)
Inductive artist : Type :=
| Bars (x : list string) (height : list num) (yerr : list num) (capsize : nat)
| Boxes (data : list (list value)) (labels : list string).

Record Figure : Type := mkFigure
  { figsize : nat * nat;
    artists : list artist;
    fig_title : string;
    fig_ylabel : string }.

Inductive content : Type :=
| Text (s : string)
| Image (f : Figure).

(** The process's view of the world: files, console, pyplot's current
    figure. *)
Record World : Type := mkWorld
  { fs : string -> option content;
    stdout : list string;
    cur_fig : option Figure }.

Section Script.

(** pandas' CSV tokenizer. *)
Variable parse_csv : string -> exn + raw_table.
(** pandas' reading of one field as a number (int64 or float64), when it
    is one; a table without missing fields is assumed. *)
Variable parse_float : string -> option R.
(** [scipy.special.stdtr(df, t)] for finite [df > 0] and finite [t], and
    its [df = inf] limit [scipy.special.ndtr]. *)
Variable stdtr : R -> R -> R.
Variable ndtr : R -> R.
(** [format(x, spec)] for a float. *)
Variable format_num : fmt -> num -> string.

(** [scipy.special.stdtr] on float64 arguments. *)
Definition nstdtr (df t : num) : num :=
  match df, t with
  | NaN, _ | _, NaN | NInf, _ => NaN
  | Fin k, _ =>
      if Rle_dec k 0 then NaN
      else match t with
           | Fin x => Fin (stdtr k x)
           | PInf => Fin 1
           | NInf => Fin 0
           | NaN => NaN
           end
  | PInf, Fin x => Fin (ndtr x)
  | PInf, PInf => Fin 1
  | PInf, NInf => Fin 0
  end.

(** [n == 1] on a float64 *)
Definition eq_one (n : num) : bool :=
  match n with
  | Fin x => if Req_EM_T x 1 then true else false
  | _ => false
  end.

(** [scipy.stats._stats_py._equal_var_ttest_denom]; a sample of one
    observation contributes a variance of [0]
    ([v1 = np.where(n1 == 1, 0, v1)]). *)
Definition equal_var_ttest_denom (v1 n1 v2 n2 : num) : num * num :=
  let v1 := if eq_one n1 then Fin 0 else v1 in
  let v2 := if eq_one n2 then Fin 0 else v2 in
  let df := nsub (nadd n1 n2) (Fin 2) in
  let svar := ndiv (nadd (nmul (nsub n1 (Fin 1)) v1) (nmul (nsub n2 (Fin 1)) v2)) df in
  (df, nsqrt (nmul svar (nadd (ndiv (Fin 1) n1) (ndiv (Fin 1) n2)))).

(** [scipy.stats._stats_py._unequal_var_ttest_denom] *)
Definition unequal_var_ttest_denom (v1 n1 v2 n2 : num) : num * num :=
  let vn1 := ndiv v1 n1 in
  let vn2 := ndiv v2 n2 in
  let df := ndiv (nmul (nadd vn1 vn2) (nadd vn1 vn2))
                 (nadd (ndiv (nmul vn1 vn1) (nsub n1 (Fin 1)))
                       (ndiv (nmul vn2 vn2) (nsub n2 (Fin 1)))) in
  let df := if isnan df then Fin 1 else df in
  (df, nsqrt (nadd vn1 vn2)).

(** [scipy.stats._stats_py._ttest_finish] *)
Definition ttest_finish (df t : num) (alt : alternative) : num * num :=
  let pval := match alt with
              | Less => nstdtr df t
              | Greater => nstdtr df (nneg t)
              | TwoSided => nmul (nstdtr df (nneg (nabs t))) (Fin 2)
              end in
  (t, pval).

(** [scipy.stats._stats_py._ttest_ind_from_stats] *)
Definition ttest_ind_from_stats (mean1 mean2 denom df : num) (alt : alternative)
  : num * num :=
  let d := nsub mean1 mean2 in
  let t := ndiv d denom in
  ttest_finish df t alt.

(** [scipy.stats.ttest_ind(a, b, equal_var, alternative)] on float64
    arrays. *)
Definition ttest_ind (equal_var : bool) (alt : alternative) (a b : list R)
  : num * num :=
  let v1 := np_var 1 a in
  let v2 := np_var 1 b in
  let n1 := Fin (INR (List.length a)) in
  let n2 := Fin (INR (List.length b)) in
  let '(df, denom) :=
    if equal_var then equal_var_ttest_denom v1 n1 v2 n2
    else unequal_var_ttest_denom v1 n1 v2 n2 in
  ttest_ind_from_stats (np_mean a) (np_mean b) denom df alt.

(** ** pandas *)

Fixpoint index_of (c : string) (cs : list string) : option nat :=
  match cs with
  | [] => None
  | c' :: cs' =>
      if String.eqb c' c then Some 0%nat
      else option_map S (index_of c cs')
  end.

(** [df[c]]: the column as a series, [KeyError] when there is none.  Rows
    of a data frame have one cell per column, so the default cell of [nth]
    is never taken. *)
Definition get_column (df : DataFrame) (c : string) : exn + list value :=
  match index_of c (columns df) with
  | None => inl (KeyError c)
  | Some i => inr (map (fun r => nth i r (VStr "")) (rows df))
  end.

(** [series == s], element by element. *)
Definition value_eq_str (v : value) (s : string) : bool :=
  match v with
  | VStr s' => String.eqb s' s
  | VNum _ => false
  end.

Definition series_eq (ser : list value) (s : string) : list bool :=
  map (fun v => value_eq_str v s) ser.

(** [df[mask]]: the rows where the boolean mask holds, in order. *)
Fixpoint bool_index (rs : list (list value)) (mask : list bool)
  : list (list value) :=
  match rs, mask with
  | r :: rs', b :: mask' => if b then r :: bool_index rs' mask' else bool_index rs' mask'
  | _, _ => []
  end.

Definition df_mask (df : DataFrame) (mask : list bool) : DataFrame :=
  mkDataFrame (columns df) (bool_index (rows df) mask).

(** [df[df['strategy'] == lbl]['average_shots'].values] *)
Definition select (df : DataFrame) (lbl : string) : exn + list value :=
  match get_column df "strategy" with
  | inl e => inl e
  | inr ser => get_column (df_mask df (series_eq ser lbl)) "average_shots"
  end.

(** An array handed to numpy or scipy is a float64 array when every cell is a
    number; an object array of strings makes their arithmetic raise
    [TypeError]. *)
Fixpoint as_floats (vs : list value) : option (list R) :=
  match vs with
  | [] => Some []
  | VNum x :: vs' => option_map (cons x) (as_floats vs')
  | VStr _ :: _ => None
  end.

Definition on_floats {A : Type} (f : list R -> A) (vs : list value) : exn + A :=
  match as_floats vs with
  | Some xs => inr (f xs)
  | None => inl TypeError
  end.

(** pandas infers one type per column: a column is numeric when every one of
    its fields reads as a number, otherwise it holds the fields as strings
    (dtype object). *)
Definition column_numeric (rs : list (list string)) (j : nat) : bool :=
  forallb (fun r => match parse_float (nth j r ""%string) with Some _ => true | None => false end) rs.

Definition type_field (numeric : bool) (s : string) : value :=
  if numeric then
    match parse_float s with
    | Some x => VNum x
    | None => VStr s
    end
  else VStr s.

(** The data frame [pd.read_csv] builds from the tokenized table. *)
Definition frame_of (t : raw_table) : DataFrame :=
  let '(hdr, rs) := t in
  mkDataFrame hdr
    (map (fun r => map (fun j => type_field (column_numeric rs j) (nth j r ""%string))
                       (seq 0 (List.length hdr))) rs).

(** ** the state and exception monad *)

Inductive result (A : Type) : Type :=
| Ok (a : A) (w : World)
| Err (e : exn) (w : World).
Arguments Ok {A}.
Arguments Err {A}.

Definition M (A : Type) : Type := World -> result A.

Definition ret {A : Type} (a : A) : M A := fun w => Ok a w.

Definition bind {A B : Type} (m : M A) (k : A -> M B) : M B :=
  fun w => match m w with
           | Ok a w' => k a w'
           | Err e w' => Err e w'
           end.

Definition raise {A : Type} (e : exn) : M A := fun w => Err e w.

Definition lift {A : Type} (r : exn + A) : M A :=
  match r with
  | inl e => raise e
  | inr a => ret a
  end.

Notation "x <- m ;; k" := (bind m (fun x => k))
  (at level 61, m at next level, right associativity).

(** ** file system, console, pyplot *)

Definition read_csv (path : string) : M DataFrame :=
  fun w => match fs w path with
           | None => Err (FileNotFoundError path) w
           | Some (Image _) => Err UnicodeDecodeError w
           | Some (Text s) =>
               match parse_csv s with
               | inl e => Err e w
               | inr t => Ok (frame_of t) w
               end
           end.

Definition print (s : string) : M unit :=
  fun w => Ok tt (mkWorld (fs w) (stdout w ++ [s]) (cur_fig w)).

Definition set_fig (f : option Figure) : M unit :=
  fun w => Ok tt (mkWorld (fs w) (stdout w) f).

(** [plt.gcf()]: the current figure, a new default one when there is none. *)
Definition gcf (w : World) : Figure :=
  match cur_fig w with
  | Some f => f
  | None => mkFigure (6, 4)%nat [] "" ""
  end.

Definition plt_figure (size : nat * nat) : M unit :=
  set_fig (Some (mkFigure size [] "" "")).

Definition plt_update (u : Figure -> Figure) : M unit :=
  fun w => set_fig (Some (u (gcf w))) w.

Definition plt_bar (x : list string) (height yerr : list num) (capsize : nat) : M unit :=
  plt_update (fun f => mkFigure (figsize f) (artists f ++ [Bars x height yerr capsize])
                                (fig_title f) (fig_ylabel f)).

Definition plt_boxplot (data : list (list value)) (labels : list string) : M unit :=
  plt_update (fun f => mkFigure (figsize f) (artists f ++ [Boxes data labels])
                                (fig_title f) (fig_ylabel f)).

Definition plt_title (s : string) : M unit :=
  plt_update (fun f => mkFigure (figsize f) (artists f) s (fig_ylabel f)).

Definition plt_ylabel (s : string) : M unit :=
  plt_update (fun f => mkFigure (figsize f) (artists f) (fig_title f) s).

(** [plt.savefig(path)] writes the current figure, replacing any file. *)
Definition plt_savefig (path : string) : M unit :=
  fun w =>
    Ok tt (mkWorld (fun p => if String.eqb p path then Some (Image (gcf w)) else fs w p)
                   (stdout w) (cur_fig w)).

Definition plt_close : M unit := set_fig None.

(** ** visualize.py *)

Definition csv_path : string := "battleship_results.csv".
Definition bar_path : string := "strategy_comparison.png".
Definition box_path : string := "strategy_distribution.png".

Definition strategies : list string := ["Random"; "PDF"; "Hunt and Target"]%string.

(** [np.mean], [np.std] and [stats.ttest_ind] on the arrays the script
    builds. *)
Definition np_mean_arr (vs : list value) : exn + num := on_floats np_mean vs.
Definition np_std_arr (ddof : nat) (vs : list value) : exn + num :=
  on_floats (np_std ddof) vs.
Definition stats_ttest_ind (equal_var : bool) (alt : alternative) (a b : list value)
  : exn + (num * num) :=
  match as_floats a, as_floats b with
  | Some xs, Some ys => inr (ttest_ind equal_var alt xs ys)
  | _, _ => inl TypeError
  end.

(** [f"{a} vs {b}: t={t:.4f}, p={p:.4e}"] *)
Definition ttest_line (a b : string) (tp : num * num) : string :=
  (a ++ " vs " ++ b ++ ": t=" ++ format_num (FmtF 4) (fst tp)
     ++ ", p=" ++ format_num (FmtE 4) (snd tp))%string.

(** Lines 10-42, run on the loaded table. *)
Definition process_results (df : DataFrame) : M unit :=
  random_results <- lift (select df "Random") ;;
  pdf_results <- lift (select df "PDF") ;;
  hunt_target_results <- lift (select df "Hunt and Target") ;;
  m1 <- lift (np_mean_arr random_results) ;;
  m2 <- lift (np_mean_arr pdf_results) ;;
  m3 <- lift (np_mean_arr hunt_target_results) ;;
  let means := [m1; m2; m3] in
  (* np.std's default ddof is 0 *)
  s1 <- lift (np_std_arr 0 random_results) ;;
  s2 <- lift (np_std_arr 0 pdf_results) ;;
  s3 <- lift (np_std_arr 0 hunt_target_results) ;;
  let stds := [s1; s2; s3] in
  (* Bar chart *)
  _ <- plt_figure (10, 6)%nat ;;
  _ <- plt_bar strategies means stds 5 ;;
  _ <- plt_title "Average Shots to Win by Strategy" ;;
  _ <- plt_ylabel "Number of Shots" ;;
  _ <- plt_savefig bar_path ;;
  _ <- plt_close ;;
  (* Box plot *)
  _ <- plt_figure (10, 6)%nat ;;
  _ <- plt_boxplot [random_results; pdf_results; hunt_target_results] strategies ;;
  _ <- plt_title "Distribution of Shots to Win by Strategy" ;;
  _ <- plt_ylabel "Number of Shots" ;;
  _ <- plt_savefig box_path ;;
  _ <- plt_close ;;
  (* T-tests: ttest_ind's defaults are equal_var=True, alternative='two-sided' *)
  tp_random_pdf <- lift (stats_ttest_ind true TwoSided random_results pdf_results) ;;
  tp_random_hunt <- lift (stats_ttest_ind true TwoSided random_results hunt_target_results) ;;
  tp_pdf_hunt <- lift (stats_ttest_ind true TwoSided pdf_results hunt_target_results) ;;
  _ <- print "T-test results:" ;;
  _ <- print (ttest_line "Random" "PDF" tp_random_pdf) ;;
  _ <- print (ttest_line "Random" "Hunt and Target" tp_random_hunt) ;;
  print (ttest_line "PDF" "Hunt and Target" tp_pdf_hunt).

Definition visualize : M unit :=
  df <- read_csv csv_path ;;
  process_results df.

(** The process: an uncaught exception ends it with exit status 1. *)
Definition run (w : World) : nat * World :=
  match visualize w with
  | Ok _ w' => (0%nat, w')
  | Err _ w' => (1%nat, w')
  end.

(** ** reference definitions, from the spec's words *)

(** Arithmetic mean, and population standard deviation (divisor [n]). *)
Definition mean_spec (xs : list R) : R := sum_R xs / INR (List.length xs).

Definition sum_sq_dev (m : R) (xs : list R) : R :=
  sum_R (map (fun x => (x - m) ^ 2) xs).

Definition pop_std_spec (xs : list R) : R :=
  sqrt (sum_sq_dev (mean_spec xs) xs / INR (List.length xs)).

(** Pooled two-sample t-test, two-sided: [t = (m1 - m2) / sqrt(sp2 (1/n1 + 1/n2))]
    with [sp2 = ((n1-1) s1 + (n2-1) s2) / (n1 + n2 - 2)] and the
    corrected variances [s1], [s2]; [p = 2 P(T <= -|t|)]. *)
Definition sample_var_spec (xs : list R) : R :=
  sum_sq_dev (mean_spec xs) xs / (INR (List.length xs) - 1).

Definition pooled_df (a b : list R) : R :=
  INR (List.length a) + INR (List.length b) - 2.

Definition pooled_var_spec (a b : list R) : R :=
  ((INR (List.length a) - 1) * sample_var_spec a
   + (INR (List.length b) - 1) * sample_var_spec b) / pooled_df a b.

Definition pooled_t_spec (a b : list R) : R :=
  (mean_spec a - mean_spec b)
  / sqrt (pooled_var_spec a b * (1 / INR (List.length a) + 1 / INR (List.length b))).

Definition pooled_p_spec (a b : list R) : R :=
  2 * stdtr (pooled_df a b) (- Rabs (pooled_t_spec a b)).

(** ** what a completed run leaves behind *)

Definition bar_figure (xr xp xh : list R) : Figure :=
  mkFigure (10, 6)%nat
    [Bars strategies [np_mean xr; np_mean xp; np_mean xh]
          [np_std 0 xr; np_std 0 xp; np_std 0 xh] 5]
    "Average Shots to Win by Strategy" "Number of Shots".

Definition box_figure (r p h : list value) : Figure :=
  mkFigure (10, 6)%nat [Boxes [r; p; h] strategies]
    "Distribution of Shots to Win by Strategy" "Number of Shots".

Definition console_lines (xr xp xh : list R) : list string :=
  ["T-test results:";
   ttest_line "Random" "PDF" (ttest_ind true TwoSided xr xp);
   ttest_line "Random" "Hunt and Target" (ttest_ind true TwoSided xr xh);
   ttest_line "PDF" "Hunt and Target" (ttest_ind true TwoSided xp xh)]%string.

Definition final_world (w : World) (r p h : list value) (xr xp xh : list R) : World :=
  mkWorld (fun q => if String.eqb q box_path then Some (Image (box_figure r p h))
                    else if String.eqb q bar_path then Some (Image (bar_figure xr xp xh))
                    else fs w q)
          (stdout w ++ console_lines xr xp xh) None.

(** The first exception lines 10-16 raise on a loaded table, if any. *)
Definition first_error (df : DataFrame) : option exn :=
  match select df "Random", select df "PDF", select df "Hunt and Target" with
  | inl e, _, _ | inr _, inl e, _ | inr _, inr _, inl e => Some e
  | inr r, inr p, inr h =>
      match as_floats r, as_floats p, as_floats h with
      | Some _, Some _, Some _ => None
      | _, _, _ => Some TypeError
      end
  end.

(** ** concrete runs *)

(** The table of the spec's worked example. *)
Definition results_df : DataFrame :=
  mkDataFrame ["strategy"; "average_shots"]%string
    [[VStr "Random"; VNum 10]; [VStr "Random"; VNum 12];
     [VStr "PDF"; VNum 5]; [VStr "PDF"; VNum 5];
     [VStr "Hunt and Target"; VNum 3]; [VStr "Hunt and Target"; VNum 4]]%string.



(** The CSV files of these tables, and what the tokenizer makes of them. *)
Definition results_csv : string :=
"strategy,average_shots
Random,10
Random,12
PDF,5
PDF,5
Hunt and Target,3
Hunt and Target,4
".

Definition no_pdf_csv : string :=
"strategy,average_shots
Random,10
Random,12
Hunt and Target,3
Hunt and Target,4
".

Definition other_csv : string := (results_csv ++ "Other,abc
")%string.

Definition results_rows : list (list string) :=
  [["Random"; "10"]; ["Random"; "12"]; ["PDF"; "5"]; ["PDF"; "5"];
   ["Hunt and Target"; "3"]; ["Hunt and Target"; "4"]]%string.

Definition results_raw : raw_table := (["strategy"; "average_shots"]%string, results_rows).

Definition no_pdf_raw : raw_table :=
  (["strategy"; "average_shots"]%string,
   [["Random"; "10"]; ["Random"; "12"]; ["Hunt and Target"; "3"]; ["Hunt and Target"; "4"]]%string).

Definition other_raw : raw_table :=
  (["strategy"; "average_shots"]%string, results_rows ++ [["Other"; "abc"]%string]).

Definition tokenize_example (s : string) : exn + raw_table :=
  if String.eqb s results_csv then inr results_raw
  else if String.eqb s no_pdf_csv then inr no_pdf_raw
  else if String.eqb s other_csv then inr other_raw
  else inl ParserError.

(** pandas' reading of the numeric fields of these files. *)
Definition float_of_example (s : string) : option R :=
  if String.eqb s "10" then Some 10
  else if String.eqb s "12" then Some 12
  else if String.eqb s "5" then Some 5
  else if String.eqb s "3" then Some 3
  else if String.eqb s "4" then Some 4
  else if String.eqb s "7" then Some 7
  else None.

Definition stdtr_half (k x : R) : R := 1 / 2.
Definition ndtr_half (x : R) : R := 1 / 2.
Definition format_empty (f : fmt) (x : num) : string := "".

Definition csv_world (text : string) : World :=
  mkWorld (fun p => if String.eqb p csv_path then Some (Text text) else None) [] None.

Definition world0 : World := csv_world results_csv.

Definition world1 : World := mkWorld (fs world0) ["earlier output"]%string None.



(** ** float64 arithmetic on finite values *)

Lemma ndiv_fin (x y : R) : y <> 0 -> ndiv (Fin x) (Fin y) = Fin (x / y).
Proof. intro Hy. simpl. destruct (Req_EM_T y 0); [contradiction | reflexivity]. Qed.

Lemma nsqrt_fin (x : R) : 0 <= x -> nsqrt (Fin x) = Fin (sqrt x).
Proof. intro Hx. simpl. destruct (Rlt_dec x 0); [lra | reflexivity]. Qed.

Lemma INR_length_pos (xs : list R) : xs <> [] -> 0 < INR (List.length xs).
Proof. destruct xs as [|x xs]; [congruence|]. intros _. apply lt_0_INR. simpl. lia. Qed.

Lemma sum_sq_dev_nonneg (m : R) (xs : list R) : 0 <= sum_sq_dev m xs.
Proof.
  induction xs as [|x xs IH]; unfold sum_sq_dev, sum_R in *; cbn [map fold_right]; [lra|].
  pose proof (pow2_ge_0 (x - m)). lra.
Qed.

Lemma np_fold_sq (m : R) (xs : list R) :
  fold_right (fun v acc => nadd (nmul (nsub (Fin v) (Fin m)) (nsub (Fin v) (Fin m))) acc)
             (Fin 0) xs
  = Fin (sum_sq_dev m xs).
Proof.
  induction xs as [|x xs IH]; unfold sum_sq_dev, sum_R in *; cbn [map fold_right];
    [reflexivity|].
  rewrite IH. simpl. f_equal. ring.
Qed.

Lemma np_mean_nonempty (xs : list R) : xs <> [] -> np_mean xs = Fin (mean_spec xs).
Proof.
  intro H. unfold np_mean, mean_spec. apply ndiv_fin.
  apply Rgt_not_eq, INR_length_pos, H.
Qed.

Lemma np_var_fin (ddof : nat) (xs : list R) :
  (ddof < List.length xs)%nat ->
  np_var ddof xs = Fin (sum_sq_dev (mean_spec xs) xs / INR (List.length xs - ddof)).
Proof.
  intro H. unfold np_var.
  rewrite np_mean_nonempty by (intro E; subst; simpl in H; lia).
  rewrite np_fold_sq. apply ndiv_fin.
  apply not_0_INR. lia.
Qed.

Lemma np_std_fin (ddof : nat) (xs : list R) :
  (ddof < List.length xs)%nat ->
  np_std ddof xs = Fin (sqrt (sum_sq_dev (mean_spec xs) xs / INR (List.length xs - ddof))).
Proof.
  intro H. unfold np_std. rewrite np_var_fin by exact H. apply nsqrt_fin.
  apply Rmult_le_pos; [apply sum_sq_dev_nonneg|].
  left. apply Rinv_0_lt_compat, lt_0_INR. lia.
Qed.


Lemma as_floats_map_VNum (xs : list R) : as_floats (map VNum xs) = Some xs.
Proof. induction xs as [|x xs IH]; simpl; [reflexivity|]. rewrite IH. reflexivity. Qed.

Lemma as_floats_some (vs : list value) (xs : list R) :
  as_floats vs = Some xs -> vs = map VNum xs.
Proof.
  revert xs. induction vs as [|[s|x] vs IH]; intros xs H; simpl in H.
  - injection H as <-. reflexivity.
  - discriminate.
  - destruct (as_floats vs) as [ys|] eqn:E; simpl in H; [|discriminate].
    injection H as <-. simpl. f_equal. apply IH. reflexivity.
Qed.

(** ** the run of the script *)

Lemma process_results_ok (df : DataFrame) (w : World) (r p h : list value)
      (xr xp xh : list R) :
  select df "Random" = inr r -> select df "PDF" = inr p ->
  select df "Hunt and Target" = inr h ->
  as_floats r = Some xr -> as_floats p = Some xp -> as_floats h = Some xh ->
  process_results df w = Ok tt (final_world w r p h xr xp xh).
Proof.
  intros Hr Hp Hh Hxr Hxp Hxh.
  unfold process_results, np_mean_arr, np_std_arr, stats_ttest_ind, on_floats.
  rewrite Hr, Hp, Hh. cbv [bind lift ret]. rewrite Hxr, Hxp, Hxh.
  destruct w as [fs0 out0 fig0].
  lazy [bind lift ret plt_figure plt_bar plt_boxplot plt_title plt_ylabel plt_savefig
        plt_close plt_update set_fig print gcf fs stdout cur_fig figsize artists
        fig_title fig_ylabel].
  unfold final_world. cbn [fs stdout app].
  rewrite <- !app_assoc. reflexivity.
Qed.


Lemma process_results_err (df : DataFrame) (w : World) (e : exn) :
  first_error df = Some e -> process_results df w = Err e w.
Proof.
  unfold first_error, process_results, np_mean_arr, on_floats.
  destruct (select df "Random") as [e1|r]; cbv [bind lift ret raise];
    [intro H; injection H as <-; reflexivity|].
  destruct (select df "PDF") as [e2|p]; cbv [bind lift ret raise];
    [intro H; injection H as <-; reflexivity|].
  destruct (select df "Hunt and Target") as [e3|h]; cbv [bind lift ret raise];
    [intro H; injection H as <-; reflexivity|].
  destruct (as_floats r); [|intro H; injection H as <-; reflexivity].
  destruct (as_floats p); [|intro H; injection H as <-; reflexivity].
  destruct (as_floats h); [discriminate|intro H; injection H as <-; reflexivity].
Qed.

Lemma read_csv_world (w w' : World) (df : DataFrame) :
  read_csv csv_path w = Ok df w' -> w' = w.
Proof.
  unfold read_csv. destruct (fs w csv_path) as [[s|f]|]; try discriminate.
  destruct (parse_csv s); [discriminate|]. intro H. injection H as _ <-. reflexivity.
Qed.

Lemma run_read_ok (w : World) (df : DataFrame) :
  read_csv csv_path w = Ok df w ->
  run w = match process_results df w with
          | Ok _ w' => (0%nat, w')
          | Err _ w' => (1%nat, w')
          end.
Proof. intro H. unfold run, visualize, bind. rewrite H. reflexivity. Qed.

Lemma run_read_err (w : World) :
  (forall df w', read_csv csv_path w <> Ok df w') -> run w = (1%nat, w).
Proof.
  intro H. unfold run, visualize, bind.
  destruct (read_csv csv_path w) as [df w'|e w'] eqn:E.
  - exfalso. exact (H df w' eq_refl).
  - unfold read_csv in E. destruct (fs w csv_path) as [[s|f]|];
      [destruct (parse_csv s)|..]; try discriminate; injection E; intros; subst; reflexivity.
Qed.

Lemma run_completes (w : World) (df : DataFrame) :
  read_csv csv_path w = Ok df w -> first_error df = None ->
  exists r p h xr xp xh,
    select df "Random" = inr r /\ select df "PDF" = inr p /\
    select df "Hunt and Target" = inr h /\
    r = map VNum xr /\ p = map VNum xp /\ h = map VNum xh /\
    run w = (0%nat, final_world w r p h xr xp xh).
Proof.
  intros Hread Hfe. rewrite (run_read_ok w df Hread).
  unfold first_error in Hfe.
  destruct (select df "Random") as [?|r] eqn:Er; [discriminate|].
  destruct (select df "PDF") as [?|p] eqn:Ep; [discriminate|].
  destruct (select df "Hunt and Target") as [?|h] eqn:Eh; [discriminate|].
  destruct (as_floats r) as [xr|] eqn:Exr; [|discriminate].
  destruct (as_floats p) as [xp|] eqn:Exp; [|discriminate].
  destruct (as_floats h) as [xh|] eqn:Exh; [|discriminate].
  exists r, p, h, xr, xp, xh.
  repeat split; try reflexivity; try (apply as_floats_some; assumption).
  rewrite (process_results_ok df w r p h xr xp xh); auto.
Qed.

(** ** the partition, row by row *)

Lemma bool_index_filter (f : list value -> bool) (rs : list (list value)) :
  bool_index rs (map f rs) = filter f rs.
Proof.
  induction rs as [|r rs IH]; simpl; [reflexivity|].
  destruct (f r); rewrite IH; reflexivity.
Qed.

Lemma select_rows (df : DataFrame) (lbl : string) :
  select df lbl =
  match index_of "strategy" (columns df), index_of "average_shots" (columns df) with
  | None, _ => inl (KeyError "strategy")
  | Some _, None => inl (KeyError "average_shots")
  | Some i, Some j =>
      inr (map (fun r => nth j r (VStr ""))
               (filter (fun r => value_eq_str (nth i r (VStr "")) lbl) (rows df)))
  end.
Proof.
  unfold select, get_column, df_mask, series_eq. cbn [columns rows].
  destruct (index_of "strategy" (columns df)) as [i|]; [|reflexivity].
  rewrite map_map, bool_index_filter.
  destruct (index_of "average_shots" (columns df)); reflexivity.
Qed.

Lemma index_of_lt (c : string) (cs : list string) (i : nat) :
  index_of c cs = Some i -> (i < List.length cs)%nat.
Proof.
  revert i. induction cs as [|c' cs IH]; intros i; simpl; [discriminate|].
  destruct (String.eqb c' c); [intro E; injection E as <-; lia|].
  destruct (index_of c cs) as [k|]; simpl; [|discriminate].
  intro E; injection E as <-. specialize (IH k eq_refl). lia.
Qed.

Lemma columns_frame (hdr : list string) (rs : list (list string)) :
  columns (frame_of (hdr, rs)) = hdr.
Proof. reflexivity. Qed.

Lemma nth_typed_row (cn : nat -> bool) (hdr r : list string) (j : nat) :
  (j < List.length hdr)%nat ->
  nth j (map (fun k => type_field (cn k) (nth k r ""%string)) (seq 0 (List.length hdr)))
      (VStr "")
  = type_field (cn j) (nth j r ""%string).
Proof.
  intro Hj.
  set (f := fun k => type_field (cn k) (nth k r ""%string)).
  rewrite nth_indep with (d' := f 0%nat) by (rewrite length_map, length_seq; exact Hj).
  rewrite map_nth, seq_nth by exact Hj. reflexivity.
Qed.

(** A label that is not a number equals a typed field exactly when it equals
    the raw field. *)
Lemma value_eq_type_field (b : bool) (s lbl : string) :
  parse_float lbl = None -> value_eq_str (type_field b s) lbl = String.eqb s lbl.
Proof.
  intro Hl. unfold type_field.
  destruct b; [|reflexivity].
  destruct (parse_float s) as [x|] eqn:Es; [|reflexivity].
  cbn [value_eq_str]. symmetry. apply String.eqb_neq. intros ->. congruence.
Qed.

Lemma select_typed (cn : nat -> bool) (hdr : list string) (l : list (list string))
      (i j : nat) (lbl : string) :
  (i < List.length hdr)%nat -> (j < List.length hdr)%nat -> parse_float lbl = None ->
  map (fun r => nth j r (VStr ""))
      (filter (fun r => value_eq_str (nth i r (VStr "")) lbl)
         (map (fun r => map (fun k => type_field (cn k) (nth k r ""%string))
                            (seq 0 (List.length hdr))) l))
  = map (fun r => type_field (cn j) (nth j r ""%string))
        (filter (fun r => String.eqb (nth i r ""%string) lbl) l).
Proof.
  intros Hi Hj Hl. induction l as [|r l IH]; [reflexivity|].
  cbn [map filter]. rewrite (nth_typed_row cn hdr r i Hi), value_eq_type_field by exact Hl.
  destruct (String.eqb (nth i r ""%string) lbl); cbn [map]; [|exact IH].
  rewrite (nth_typed_row cn hdr r j Hj), IH. reflexivity.
Qed.

(** The sample of a label that is not a number, on a tokenized table: the
    typed [average_shots] fields of the rows whose raw [strategy] field is
    the label. *)
Lemma select_frame (hdr : list string) (rs : list (list string)) (i j : nat) (lbl : string) :
  index_of "strategy" hdr = Some i -> index_of "average_shots" hdr = Some j ->
  parse_float lbl = None ->
  select (frame_of (hdr, rs)) lbl
  = inr (map (fun r => type_field (column_numeric rs j) (nth j r ""%string))
             (filter (fun r => String.eqb (nth i r ""%string) lbl) rs)).
Proof.
  intros Hi Hj Hl. rewrite select_rows, columns_frame, Hi, Hj. f_equal.
  apply (select_typed (column_numeric rs) hdr rs i j lbl);
    [apply (index_of_lt _ _ _ Hi) | apply (index_of_lt _ _ _ Hj) | exact Hl].
Qed.



(** ** claims *)

(** C1: for every loaded table that has the [strategy] and [average_shots]
    columns and for each of the labels "Random", "PDF" and
    "Hunt and Target", the sample is the list of [average_shots] cells of
    exactly the rows whose [strategy] cell equals the label, in row order. *)
Theorem partition_is_filter (df : DataFrame) (lbl : string) (i j : nat) :
  index_of "strategy" (columns df) = Some i ->
  index_of "average_shots" (columns df) = Some j ->
  In lbl strategies ->
  select df lbl =
  inr (map (fun r => nth j r (VStr ""))
           (filter (fun r => value_eq_str (nth i r (VStr "")) lbl) (rows df)))
  /\ (forall v, value_eq_str v lbl = true <-> v = VStr lbl).
Proof.
  intros Hi Hj _. split; [rewrite select_rows, Hi, Hj; reflexivity|].
  intros [s|x]; simpl; split; intro H; try discriminate.
  - apply String.eqb_eq in H. subst. reflexivity.
  - injection H as ->. apply String.eqb_refl.
Qed.




Lemma run_cases (w : World) :
  run w = (1%nat, w)
  \/ exists df r p h xr xp xh,
       read_csv csv_path w = Ok df w /\
       select df "Random" = inr r /\ select df "PDF" = inr p /\
       select df "Hunt and Target" = inr h /\
       r = map VNum xr /\ p = map VNum xp /\ h = map VNum xh /\
       run w = (0%nat, final_world w r p h xr xp xh).
Proof.
  destruct (read_csv csv_path w) as [df w'|e w'] eqn:E.
  - pose proof (read_csv_world w w' df E) as ->.
    destruct (first_error df) as [e|] eqn:Efe.
    + left. rewrite (run_read_ok w df E), (process_results_err df w e Efe). reflexivity.
    + right. destruct (run_completes w df E Efe) as (r & p & h & xr & xp & xh & H).
      exists df, r, p, h, xr, xp, xh. tauto.
  - left. apply run_read_err. intros df w'' H. congruence.
Qed.



(** C8: the run writes nothing but the two image files and the console:
    every other file, the CSV input included, is left as it was; the
    console only grows at its end; a completed run leaves its figures at the
    two fixed names whatever was there before. *)
Theorem only_images_and_console (w : World) :
  (forall q, q <> bar_path -> q <> box_path -> fs (snd (run w)) q = fs w q) /\
  (exists L, stdout (snd (run w)) = stdout w ++ L) /\
  (fst (run w) = 0%nat ->
   exists fb fx, fs (snd (run w)) bar_path = Some (Image fb) /\
                 fs (snd (run w)) box_path = Some (Image fx)).
Proof.
  destruct (run_cases w) as [H | (df & r & p & h & xr & xp & xh & _ & _ & _ & _ & _ & _ & _ & H)];
    rewrite H; cbn [fst snd].
  - split; [reflexivity|split; [exists []; rewrite app_nil_r; reflexivity|discriminate]].
  - unfold final_world; cbn [fs stdout]. split; [|split].
    + intros q Hb Hx. apply String.eqb_neq in Hb, Hx. rewrite Hb, Hx. reflexivity.
    + eexists. reflexivity.
    + intros _. do 2 eexists. cbn. split; reflexivity.
Qed.

(** C9: two runs on worlds whose CSV files have the same contents end with
    the same exit status and append the same lines to the console. *)
Theorem console_deterministic (w1 w2 : World) :
  fs w1 csv_path = fs w2 csv_path ->
  fst (run w1) = fst (run w2) /\
  exists L, stdout (snd (run w1)) = stdout w1 ++ L /\ stdout (snd (run w2)) = stdout w2 ++ L.
Proof.
  intro Hfs.
  assert (Hread : forall w df, fs w csv_path = fs w1 csv_path ->
            (read_csv csv_path w = Ok df w <-> read_csv csv_path w1 = Ok df w1)).
  { intros w df Hw. unfold read_csv. rewrite Hw.
    destruct (fs w1 csv_path) as [[s|f]|]; [destruct (parse_csv s)|..];
      split; intro E; try discriminate; injection E; intros; subst; reflexivity. }
  destruct (run_cases w1) as [H1 | (df & r & p & h & xr & xp & xh & Hr1 & Er & Ep & Eh & -> & -> & -> & H1)].
  - rewrite H1. destruct (run_cases w2) as [H2 | (df & r & p & h & xr & xp & xh & Hr2 & Er & Ep & Eh & -> & -> & -> & H2)].
    + rewrite H2. split; [reflexivity|]. exists []. rewrite !app_nil_r. split; reflexivity.
    + exfalso. apply (proj1 (Hread w2 df (eq_sym Hfs))) in Hr2.
      pose proof (run_completes w1 df Hr2) as Hc.
      destruct (first_error df) as [e|] eqn:Efe.
      * unfold first_error in Efe. rewrite Er, Ep, Eh, !as_floats_map_VNum in Efe. discriminate.
      * destruct (Hc eq_refl) as (r' & p' & h' & xr' & xp' & xh' & _ & _ & _ & _ & _ & _ & H).
        congruence.
  - rewrite H1. apply (proj2 (Hread w2 df (eq_sym Hfs))) in Hr1.
    rewrite (run_read_ok w2 df Hr1).
    rewrite (process_results_ok df w2 _ _ _ xr xp xh Er Ep Eh) by apply as_floats_map_VNum.
    cbn [fst snd]. split; [reflexivity|]. exists (console_lines xr xp xh).
    split; reflexivity.
Qed.

(** C4: a completed run prints exactly four lines: the header, then one
    "A vs B: t=..., p=..." line per pair in the order (Random, PDF),
    (Random, Hunt and Target), (PDF, Hunt and Target), t formatted with
    [.4f] (4 decimal places) and p with [.4e] (scientific notation, 4 digits
    after the point). *)
Theorem console_four_lines (w : World) (df : DataFrame) :
  read_csv csv_path w = Ok df w -> first_error df = None ->
  exists t1 p1 t2 p2 t3 p3,
    stdout (snd (run w)) = stdout w ++
      ["T-test results:";
       "Random vs PDF: t=" ++ format_num (FmtF 4) t1 ++ ", p=" ++ format_num (FmtE 4) p1;
       "Random vs Hunt and Target: t=" ++ format_num (FmtF 4) t2
         ++ ", p=" ++ format_num (FmtE 4) p2;
       "PDF vs Hunt and Target: t=" ++ format_num (FmtF 4) t3
         ++ ", p=" ++ format_num (FmtE 4) p3]%string.
Proof.
  intros Hr Hfe. destruct (run_completes w df Hr Hfe) as (r & p & h & xr & xp & xh & H).
  destruct H as (_ & _ & _ & _ & _ & _ & ->). cbn [snd].
  exists (fst (ttest_ind true TwoSided xr xp)), (snd (ttest_ind true TwoSided xr xp)),
         (fst (ttest_ind true TwoSided xr xh)), (snd (ttest_ind true TwoSided xr xh)),
         (fst (ttest_ind true TwoSided xp xh)), (snd (ttest_ind true TwoSided xp xh)).
  reflexivity.
Qed.

(** C2: in the bar chart of a completed run, the bar of each strategy whose
    sample is non-empty has the sample's arithmetic mean as height and its
    population standard deviation (divisor n) as error bar. *)
Theorem bar_heights_mean_popstd (w : World) (df : DataFrame) :
  read_csv csv_path w = Ok df w -> first_error df = None ->
  exists hs es,
    fs (snd (run w)) bar_path
      = Some (Image (mkFigure (10, 6)%nat [Bars strategies hs es 5]
                       "Average Shots to Win by Strategy" "Number of Shots")) /\
    (forall i lbl xs, nth_error strategies i = Some lbl ->
       select df lbl = inr (map VNum xs) -> xs <> [] ->
       nth_error hs i = Some (Fin (mean_spec xs)) /\
       nth_error es i = Some (Fin (pop_std_spec xs))).
Proof.
  intros Hr Hfe. destruct (run_completes w df Hr Hfe)
    as (r & p & h & xr & xp & xh & Er & Ep & Eh & -> & -> & -> & ->).
  exists [np_mean xr; np_mean xp; np_mean xh], [np_std 0 xr; np_std 0 xp; np_std 0 xh].
  split; [reflexivity|].
  intros i lbl xs Hi Hs Hne.
  assert (Hm : np_mean xs = Fin (mean_spec xs)) by (apply np_mean_nonempty; exact Hne).
  assert (Hd : np_std 0 xs = Fin (pop_std_spec xs)).
  { unfold pop_std_spec. rewrite np_std_fin, Nat.sub_0_r; [reflexivity|].
    destruct xs; [congruence|simpl; lia]. }
  assert (Hinj : forall ys, inr (map VNum ys) = @inr exn _ (map VNum xs) -> ys = xs).
  { intros ys E. injection E as E. apply (f_equal as_floats) in E.
    rewrite !as_floats_map_VNum in E. injection E as E. exact E. }
  destruct i as [|[|[|i]]]; cbn [nth_error strategies] in Hi |- *;
    [..|destruct i; discriminate]; injection Hi as <-;
    [rewrite Er in Hs | rewrite Ep in Hs | rewrite Eh in Hs];
    apply Hinj in Hs; subst; rewrite Hm, Hd; split; reflexivity.
Qed.


(** The guarded variance term [(n - 1) * np.where(n == 1, 0, v)] of a
    non-empty sample is its sum of squared deviations. *)
Lemma guarded_var (a : list R) :
  (1 <= List.length a)%nat ->
  nmul (nsub (Fin (INR (List.length a))) (Fin 1))
       (if eq_one (Fin (INR (List.length a))) then Fin 0 else np_var 1 a)
  = Fin ((INR (List.length a) - 1) * sample_var_spec a).
Proof.
  intro H. unfold eq_one. destruct (Req_EM_T (INR (List.length a)) 1) as [E|NE].
  - cbn [nsub nneg nadd nmul]. rewrite E. f_equal. ring.
  - assert (H2 : (1 < List.length a)%nat).
    { destruct (List.length a) as [|[|n]]; [lia| |lia]. exfalso. apply NE. reflexivity. }
    rewrite np_var_fin by exact H2. cbn [nsub nneg nadd nmul]. f_equal.
    unfold sample_var_spec. rewrite minus_INR by lia. change (INR 1) with 1.
    unfold Rminus. reflexivity.
Qed.

Lemma ttest_finish_fin (k x : R) :
  0 < k -> ttest_finish (Fin k) (Fin x) TwoSided = (Fin x, Fin (2 * stdtr k (- Rabs x))).
Proof.
  intro Hk. unfold ttest_finish. cbn [nabs nneg nstdtr].
  destruct (Rle_dec k 0); [lra|]. cbn [nmul]. f_equal. f_equal. ring.
Qed.

Lemma ttest_ind_pooled (a b : list R) :
  (1 <= List.length a)%nat -> (1 <= List.length b)%nat ->
  (3 <= List.length a + List.length b)%nat -> 0 < pooled_var_spec a b ->
  ttest_ind true TwoSided a b = (Fin (pooled_t_spec a b), Fin (pooled_p_spec a b)).
Proof.
  intros Ha Hb Hab Hsv. unfold ttest_ind, equal_var_ttest_denom. cbv beta iota zeta.
  rewrite (guarded_var a Ha), (guarded_var b Hb).
  assert (Hna : 1 <= INR (List.length a)) by (apply (le_INR 1); exact Ha).
  assert (Hnb : 1 <= INR (List.length b)) by (apply (le_INR 1); exact Hb).
  assert (Hnab : 3 <= INR (List.length a) + INR (List.length b))
    by (rewrite <- plus_INR; apply le_INR in Hab; change (INR 3) with (1 + 1 + 1) in Hab;
        lra).
  cbn [nsub nadd nneg]. rewrite ndiv_fin by lra.
  rewrite (ndiv_fin 1 (INR (List.length a))) by lra.
  rewrite (ndiv_fin 1 (INR (List.length b))) by lra.
  cbn [nadd nmul]. rewrite nsqrt_fin.
  2:{ apply Rmult_le_pos; [left; exact Hsv|].
      left. apply Rplus_lt_0_compat; apply Rdiv_lt_0_compat; lra. }
  rewrite (np_mean_nonempty a), (np_mean_nonempty b)
    by (intro E; subst; simpl in *; lia).
  unfold ttest_ind_from_stats. cbn [nsub nadd nneg].
  rewrite ndiv_fin.
  2:{ apply Rgt_not_eq, sqrt_lt_R0, Rmult_lt_0_compat; [exact Hsv|].
      apply Rplus_lt_0_compat; apply Rdiv_lt_0_compat; lra. }
  rewrite ttest_finish_fin by (unfold pooled_df; lra). reflexivity.
Qed.

(** C3: every completed run computes each of the three pairs' (t, p) with
    [ttest_ind] at its defaults (pooled variance, two-sided), on the two
    samples of the pair, and prints exactly those values; for two non-empty
    samples of at least three values together with a positive pooled
    variance (a one-value sample contributing no squared deviations) they
    are the textbook pooled t statistic and its two-sided p-value. *)
Theorem ttests_pooled_two_sided (w : World) (df : DataFrame) :
  read_csv csv_path w = Ok df w -> first_error df = None ->
  exists xr xp xh,
    select df "Random" = inr (map VNum xr) /\ select df "PDF" = inr (map VNum xp) /\
    select df "Hunt and Target" = inr (map VNum xh) /\
    stdout (snd (run w)) = stdout w ++
      ["T-test results:";
       ttest_line "Random" "PDF" (ttest_ind true TwoSided xr xp);
       ttest_line "Random" "Hunt and Target" (ttest_ind true TwoSided xr xh);
       ttest_line "PDF" "Hunt and Target" (ttest_ind true TwoSided xp xh)]%string /\
    (forall a b, In (a, b) [(xr, xp); (xr, xh); (xp, xh)] ->
       (1 <= List.length a)%nat -> (1 <= List.length b)%nat ->
       (3 <= List.length a + List.length b)%nat -> 0 < pooled_var_spec a b ->
       ttest_ind true TwoSided a b = (Fin (pooled_t_spec a b), Fin (pooled_p_spec a b))).
Proof.
  intros Hr Hfe. destruct (run_completes w df Hr Hfe)
    as (r & p & h & xr & xp & xh & Er & Ep & Eh & -> & -> & -> & ->).
  exists xr, xp, xh. repeat split; try assumption.
  intros a b _. apply ttest_ind_pooled.
Qed.






Lemma np_mean_nil : np_mean [] = NaN.
Proof. unfold np_mean. cbn. destruct (Req_EM_T 0 0); [reflexivity|congruence]. Qed.

Lemma np_var1_single (x : R) : np_var 1 [x] = NaN.
Proof.
  unfold np_var. rewrite np_mean_nonempty by discriminate. rewrite np_fold_sq.
  replace (sum_sq_dev (mean_spec [x]) [x]) with 0.
  2:{ unfold sum_sq_dev, mean_spec, sum_R. cbn. field. }
  cbn. destruct (Req_EM_T 0 0); [reflexivity|congruence].
Qed.



Lemma ndiv_zero_zero (x y : R) : x = 0 -> y = 0 -> ndiv (Fin x) (Fin y) = NaN.
Proof.
  intros -> ->. unfold ndiv. destruct (Req_EM_T 0 0); [reflexivity|congruence].
Qed.

(** Two one-value samples leave no degree of freedom: the pooled variance is
    [0/0]. *)
Lemma pooled_single (alt : alternative) (x y : R) :
  ttest_ind true alt [x] [y] = (NaN, NaN).
Proof.
  unfold ttest_ind, equal_var_ttest_denom. cbv beta iota zeta.
  change (INR (List.length [x])) with 1. change (INR (List.length [y])) with 1.
  unfold eq_one. destruct (Req_EM_T 1 1) as [_|]; [|congruence].
  cbn [nsub nadd nneg nmul].
  rewrite (ndiv_zero_zero ((1 + - (1)) * 0 + (1 + - (1)) * 0) (1 + 1 + - (2))) by ring.
  unfold ttest_ind_from_stats. cbn [nmul nsqrt].
  destruct (nsub _ _); destruct alt; reflexivity.
Qed.



(** ** further properties of the script and its library calls *)

(** The box plot of a completed run: one figure holding only the three
    samples, in label order, with the fixed labels and texts; no figure is
    left open afterwards. *)
Theorem box_plot_figure (w : World) (df : DataFrame) :
  read_csv csv_path w = Ok df w -> first_error df = None ->
  exists r p h,
    select df "Random" = inr r /\ select df "PDF" = inr p /\
    select df "Hunt and Target" = inr h /\
    fs (snd (run w)) box_path
      = Some (Image (mkFigure (10, 6)%nat [Boxes [r; p; h] strategies]
                       "Distribution of Shots to Win by Strategy" "Number of Shots")) /\
    cur_fig (snd (run w)) = None.
Proof.
  intros Hr Hfe. destruct (run_completes w df Hr Hfe)
    as (r & p & h & xr & xp & xh & Er & Ep & Eh & _ & _ & _ & ->).
  exists r, p, h. repeat split; assumption.
Qed.

Lemma nadd_comm (a b : num) : nadd a b = nadd b a.
Proof. destruct a, b; simpl; try reflexivity. f_equal. ring. Qed.

Lemma nneg_nadd (a b : num) : nneg (nadd a b) = nadd (nneg a) (nneg b).
Proof. destruct a, b; simpl; try reflexivity. f_equal. ring. Qed.

Lemma nneg_involutive (a : num) : nneg (nneg a) = a.
Proof. destruct a; simpl; try reflexivity. f_equal. ring. Qed.

Lemma nsub_swap (a b : num) : nsub b a = nneg (nsub a b).
Proof. unfold nsub. rewrite nneg_nadd, nneg_involutive. apply nadd_comm. Qed.

Lemma ndiv_nneg_l (a b : num) : ndiv (nneg a) b = nneg (ndiv a b).
Proof.
  destruct a as [x| | |], b as [y| | |]; simpl; try reflexivity.
  - destruct (Req_EM_T y 0); cbn [nneg]; [|f_equal; field; assumption].
    destruct (Req_EM_T (- x) 0), (Req_EM_T x 0); try lra; try reflexivity;
      destruct (Rlt_dec 0 (- x)), (Rlt_dec 0 x); try lra; reflexivity.
  - f_equal. ring.
  - f_equal. ring.
  - destruct (Req_EM_T y 0); [reflexivity|]. unfold scale_inf.
    destruct (Req_EM_T y 0); [reflexivity|]. destruct (Rlt_dec 0 y); reflexivity.
  - destruct (Req_EM_T y 0); [reflexivity|]. unfold scale_inf.
    destruct (Req_EM_T y 0); [reflexivity|]. destruct (Rlt_dec 0 y); reflexivity.
Qed.

Lemma nabs_nneg (a : num) : nabs (nneg a) = nabs a.
Proof. destruct a; simpl; try reflexivity. f_equal. apply Rabs_Ropp. Qed.

Lemma equal_var_denom_swap (v1 n1 v2 n2 : num) :
  equal_var_ttest_denom v2 n2 v1 n1 = equal_var_ttest_denom v1 n1 v2 n2.
Proof.
  unfold equal_var_ttest_denom. cbv zeta.
  rewrite (nadd_comm n2 n1), (nadd_comm (nmul (nsub n2 (Fin 1)) _)),
          (nadd_comm (ndiv (Fin 1) n2)).
  reflexivity.
Qed.

(** Swapping the two samples of the pooled two-sided test negates t and keeps
    p, for every pair of float arrays. *)
Theorem ttest_ind_swap (a b : list R) :
  ttest_ind true TwoSided b a
  = (nneg (fst (ttest_ind true TwoSided a b)), snd (ttest_ind true TwoSided a b)).
Proof.
  unfold ttest_ind. cbv zeta. rewrite equal_var_denom_swap.
  destruct (equal_var_ttest_denom (np_var 1 a) _ (np_var 1 b) _) as [df denom].
  unfold ttest_ind_from_stats, ttest_finish. cbn [fst snd].
  rewrite nsub_swap, ndiv_nneg_l, nabs_nneg. reflexivity.
Qed.

Lemma nadd_nan_l (a : num) : nadd NaN a = NaN.
Proof. reflexivity. Qed.
Lemma nadd_nan_r (a : num) : nadd a NaN = NaN.
Proof. destruct a; reflexivity. Qed.
Lemma nmul_nan_l (a : num) : nmul NaN a = NaN.
Proof. reflexivity. Qed.
Lemma nmul_nan_r (a : num) : nmul a NaN = NaN.
Proof. destruct a; reflexivity. Qed.
Lemma ndiv_nan_l (a : num) : ndiv NaN a = NaN.
Proof. reflexivity. Qed.
Lemma ndiv_nan_r (a : num) : ndiv a NaN = NaN.
Proof. destruct a; reflexivity. Qed.
Lemma nsub_nan_l (a : num) : nsub NaN a = NaN.
Proof. reflexivity. Qed.
Lemma nsub_nan_r (a : num) : nsub a NaN = NaN.
Proof. destruct a; reflexivity. Qed.
Lemma nsqrt_nan : nsqrt NaN = NaN.
Proof. reflexivity. Qed.
Lemma nneg_nan : nneg NaN = NaN.
Proof. reflexivity. Qed.
Lemma nabs_nan : nabs NaN = NaN.
Proof. reflexivity. Qed.
Lemma nstdtr_nan_r (df : num) : nstdtr df NaN = NaN.
Proof. destruct df; reflexivity. Qed.

Lemma np_var1_short (xs : list R) : (List.length xs < 2)%nat -> np_var 1 xs = NaN.
Proof.
  intro H. destruct xs as [|x [|x' xs]]; cbn [List.length] in H; try lia.
  - unfold np_var. rewrite np_mean_nil. cbn. destruct (Req_EM_T 0 0); [reflexivity|congruence].
  - apply np_var1_single.
Qed.

Lemma ttest_finish_nan (df : num) (alt : alternative) : ttest_finish df NaN alt = (NaN, NaN).
Proof.
  unfold ttest_finish. destruct alt; rewrite ?nabs_nan, ?nneg_nan, nstdtr_nan_r; reflexivity.
Qed.

Lemma unequal_short_nan (alt : alternative) (a b : list R) :
  (List.length a < 2)%nat \/ (List.length b < 2)%nat ->
  ttest_ind false alt a b = (NaN, NaN).
Proof.
  intro H. unfold ttest_ind. cbv zeta.
  destruct H as [H|H]; rewrite (np_var1_short _ H);
    unfold unequal_var_ttest_denom; cbv zeta;
    rewrite ?nmul_nan_r, ?nmul_nan_l, ?nadd_nan_l, ?nadd_nan_r, ?ndiv_nan_l, ?nsqrt_nan;
    unfold ttest_ind_from_stats; rewrite ndiv_nan_r; apply ttest_finish_nan.
Qed.

(** t and p are both NaN when a sample is empty, when both samples hold a
    single value (the pooled variance is 0/0), and, in Welch's test, when a
    sample holds fewer than two values; whichever sample it is and whatever
    the alternative. *)
Theorem ttest_ind_short_nan (eq_var : bool) (alt : alternative) (a b : list R) :
  a = [] \/ b = [] \/ (List.length a = 1 /\ List.length b = 1)%nat \/
  (eq_var = false /\ ((List.length a < 2)%nat \/ (List.length b < 2)%nat)) ->
  ttest_ind eq_var alt a b = (NaN, NaN).
Proof.
  intros [->|[->|[[Ha Hb]|[-> H]]]].
  - unfold ttest_ind. cbv zeta. rewrite np_mean_nil.
    destruct eq_var; [destruct (equal_var_ttest_denom _ _ _ _)
                     | destruct (unequal_var_ttest_denom _ _ _ _)];
      unfold ttest_ind_from_stats; rewrite nsub_nan_l, ndiv_nan_l; apply ttest_finish_nan.
  - unfold ttest_ind. cbv zeta. rewrite np_mean_nil.
    destruct eq_var; [destruct (equal_var_ttest_denom _ _ _ _)
                     | destruct (unequal_var_ttest_denom _ _ _ _)];
      unfold ttest_ind_from_stats; rewrite nsub_nan_r, ndiv_nan_l; apply ttest_finish_nan.
  - destruct a as [|x [|]]; try discriminate. destruct b as [|y [|]]; try discriminate.
    destruct eq_var; [apply pooled_single|apply unequal_short_nan; left; simpl; lia].
  - apply unequal_short_nan, H.
Qed.

Lemma as_floats_str (vs : list value) (s : string) : In (VStr s) vs -> as_floats vs = None.
Proof.
  induction vs as [|[s'|x] vs IH]; simpl; [tauto| |].
  - reflexivity.
  - intros [H|H]; [discriminate|]. rewrite (IH H). reflexivity.
Qed.

(** Which exception stops the script: [KeyError('strategy')] when that
    column is missing, else [KeyError('average_shots')] when that one is,
    else [TypeError] when some labelled row has a string in [average_shots];
    nothing has been written or printed then. *)
Theorem process_results_exception (df : DataFrame) (w : World) :
  (index_of "strategy" (columns df) = None ->
   process_results df w = Err (KeyError "strategy") w) /\
  (index_of "strategy" (columns df) <> None -> index_of "average_shots" (columns df) = None ->
   process_results df w = Err (KeyError "average_shots") w) /\
  (forall i j lbl r s, index_of "strategy" (columns df) = Some i ->
     index_of "average_shots" (columns df) = Some j -> In lbl strategies ->
     In r (rows df) -> nth i r (VStr "") = VStr lbl -> nth j r (VStr "") = VStr s ->
     process_results df w = Err TypeError w).
Proof.
  split; [|split].
  - intro H. apply process_results_err. unfold first_error. rewrite !select_rows, H.
    reflexivity.
  - intros H1 H2. apply process_results_err. unfold first_error. rewrite !select_rows, H2.
    destruct (index_of "strategy" (columns df)); [reflexivity|congruence].
  - intros i j lbl r s Hi Hj Hl Hr Hlab Hval. apply process_results_err.
    assert (Hin : forall l, l = lbl ->
              In (VStr s) (map (fun r => nth j r (VStr ""))
                 (filter (fun r => value_eq_str (nth i r (VStr "")) l) (rows df)))).
    { intros l ->. rewrite <- Hval. apply (in_map (fun r' => nth j r' (VStr "")) _ r).
      apply filter_In. split; [exact Hr|].
      rewrite Hlab. apply String.eqb_refl. }
    unfold first_error. rewrite !select_rows, Hi, Hj.
    cbn in Hl. destruct Hl as [<-|[<-|[<-|[]]]].
    all: rewrite (as_floats_str _ s (Hin _ eq_refl));
      repeat match goal with |- context [as_floats ?v] => destruct (as_floats v) end;
      reflexivity.
Qed.

Lemma filter_perm {A : Type} (f : A -> bool) (l l' : list A) :
  Permutation l l' -> Permutation (filter f l) (filter f l').
Proof.
  induction 1 as [|x l l' _ IH|x y l|l l' l'' _ IH1 _ IH2]; simpl.
  - constructor.
  - destruct (f x); [constructor|]; exact IH.
  - destruct (f x), (f y); try constructor; reflexivity.
  - eapply Permutation_trans; eassumption.
Qed.

Lemma as_floats_none (vs : list value) : as_floats vs = None -> exists s, In (VStr s) vs.
Proof.
  induction vs as [|[s|x] vs IH]; simpl; [discriminate| |].
  - intros _. exists s. left. reflexivity.
  - destruct (as_floats vs); [discriminate|]. intros _.
    destruct (IH eq_refl) as [s Hs]. exists s. right. exact Hs.
Qed.

Lemma as_floats_perm (v v' : list value) :
  Permutation v v' ->
  (as_floats v = None /\ as_floats v' = None) \/
  (exists x x', as_floats v = Some x /\ as_floats v' = Some x' /\ Permutation x x').
Proof.
  intro H. destruct (as_floats v) as [x|] eqn:E.
  - right. apply as_floats_some in E. subst v.
    destruct (Permutation_map_inv _ _ (Permutation_sym H)) as (x' & -> & Hx).
    exists x, x'. rewrite as_floats_map_VNum. split; [reflexivity|split; [reflexivity|exact Hx]].
  - left. split; [reflexivity|]. destruct (as_floats_none v E) as [s Hs].
    apply (as_floats_str _ s). eapply Permutation_in; eassumption.
Qed.

Lemma select_perm (cols : list string) (rs rs' : list (list value)) (lbl : string) :
  Permutation rs rs' ->
  (exists e, select (mkDataFrame cols rs) lbl = inl e /\ select (mkDataFrame cols rs') lbl = inl e)
  \/ (exists v v', select (mkDataFrame cols rs) lbl = inr v /\
                   select (mkDataFrame cols rs') lbl = inr v' /\ Permutation v v').
Proof.
  intro H. rewrite !select_rows. cbn [columns rows].
  destruct (index_of "strategy" cols) as [i|]; [|left; eexists; split; reflexivity].
  destruct (index_of "average_shots" cols) as [j|]; [|left; eexists; split; reflexivity].
  right. do 2 eexists. split; [reflexivity|split; [reflexivity|]].
  apply Permutation_map, filter_perm, H.
Qed.

(** Reordering the rows of the table permutes each of the three samples and
    keeps the outcome: the same exception, or both orders complete and leave
    the same files apart from the two images, with no figure open. *)
Theorem rows_order_irrelevant (cols : list string) (rs rs' : list (list value)) (w : World) :
  Permutation rs rs' ->
  (forall lbl,
     (exists e, select (mkDataFrame cols rs) lbl = inl e /\
                select (mkDataFrame cols rs') lbl = inl e) \/
     (exists v v', select (mkDataFrame cols rs) lbl = inr v /\
                   select (mkDataFrame cols rs') lbl = inr v' /\ Permutation v v')) /\
  ((exists e, process_results (mkDataFrame cols rs) w = Err e w /\
              process_results (mkDataFrame cols rs') w = Err e w) \/
   (exists W W', process_results (mkDataFrame cols rs) w = Ok tt W /\
                 process_results (mkDataFrame cols rs') w = Ok tt W' /\
                 cur_fig W = None /\ cur_fig W' = None /\
                 (forall q, q <> bar_path -> q <> box_path -> fs W q = fs W' q))).
Proof.
  intro H. split; [intro lbl; apply select_perm, H|].
  remember (mkDataFrame cols rs) as df eqn:Edf.
  remember (mkDataFrame cols rs') as df' eqn:Edf'.
  assert (Herr : forall e, first_error df = Some e -> first_error df' = Some e ->
            (exists e, process_results df w = Err e w /\ process_results df' w = Err e w) \/
            (exists W W', process_results df w = Ok tt W /\ process_results df' w = Ok tt W' /\
                cur_fig W = None /\ cur_fig W' = None /\
                (forall q, q <> bar_path -> q <> box_path -> fs W q = fs W' q))).
  { intros e H1 H2. left. exists e. split; apply process_results_err; assumption. }
  pose proof (fun lbl => select_perm cols rs rs' lbl H) as SP. rewrite <- Edf, <- Edf' in SP.
  destruct (SP "Random"%string) as [(e & E1 & E2)|(r & r' & E1 & E2 & Pr)];
    [apply (Herr e); unfold first_error; [rewrite E1|rewrite E2]; reflexivity|].
  destruct (SP "PDF"%string) as [(e & F1 & F2)|(p & p' & F1 & F2 & Pp)];
    [apply (Herr e); unfold first_error; [rewrite E1, F1|rewrite E2, F2]; reflexivity|].
  destruct (SP "Hunt and Target"%string) as [(e & G1 & G2)|(h & h' & G1 & G2 & Ph)];
    [apply (Herr e); unfold first_error; [rewrite E1, F1, G1|rewrite E2, F2, G2]; reflexivity|].
  destruct (as_floats_perm r r' Pr) as [(A1 & A2)|(xr & xr' & A1 & A2 & Qr)];
    [apply (Herr TypeError); unfold first_error;
     [rewrite E1, F1, G1, A1|rewrite E2, F2, G2, A2]; reflexivity|].
  destruct (as_floats_perm p p' Pp) as [(B1 & B2)|(xp & xp' & B1 & B2 & Qp)];
    [apply (Herr TypeError); unfold first_error;
     [rewrite E1, F1, G1, A1, B1|rewrite E2, F2, G2, A2, B2]; reflexivity|].
  destruct (as_floats_perm h h' Ph) as [(C1 & C2)|(xh & xh' & C1 & C2 & Qh)];
    [apply (Herr TypeError); unfold first_error;
     [rewrite E1, F1, G1, A1, B1, C1|rewrite E2, F2, G2, A2, B2, C2]; reflexivity|].
  right. rewrite (process_results_ok df w r p h xr xp xh E1 F1 G1 A1 B1 C1),
                 (process_results_ok df' w r' p' h' xr' xp' xh' E2 F2 G2 A2 B2 C2).
  do 2 eexists. split; [reflexivity|split; [reflexivity|]].
  unfold final_world. cbn [stdout fs cur_fig]. split; [reflexivity|split; [reflexivity|]].
  intros q Hb Hx. apply String.eqb_neq in Hb, Hx. rewrite Hb, Hx. reflexivity.
Qed.

(** A row whose [average_shots] field is not a number turns the whole column
    into strings: as soon as some row carries one of the three labels, the
    run stops with an exception before drawing or printing anything. *)
Theorem text_field_fails (hdr : list string) (rs : list (list string)) (i j : nat)
        (r0 r1 : list string) (w : World) :
  index_of "strategy" hdr = Some i -> index_of "average_shots" hdr = Some j ->
  (forall lbl, In lbl strategies -> parse_float lbl = None) ->
  In r0 rs -> parse_float (nth j r0 ""%string) = None ->
  In r1 rs -> In (nth i r1 ""%string) strategies ->
  exists e, process_results (frame_of (hdr, rs)) w = Err e w.
Proof.
  intros Hi Hj Hlab H0 Hr0 H1 Hl1.
  assert (Hcn : column_numeric rs j = false).
  { unfold column_numeric. destruct (forallb _ rs) eqn:E; [|reflexivity].
    rewrite forallb_forall in E. specialize (E r0 H0). rewrite Hr0 in E. discriminate. }
  assert (Hsel : forall l, In l strategies ->
            select (frame_of (hdr, rs)) l
            = inr (map (fun r => VStr (nth j r ""%string))
                       (filter (fun r => String.eqb (nth i r ""%string) l) rs))).
  { intros l Hl. rewrite (select_frame hdr rs i j l Hi Hj (Hlab l Hl)), Hcn. reflexivity. }
  assert (Hnone : forall l, l = nth i r1 ""%string ->
            as_floats (map (fun r => VStr (nth j r ""%string))
                           (filter (fun r => String.eqb (nth i r ""%string) l) rs)) = None).
  { intros l ->. apply (as_floats_str _ (nth j r1 ""%string)).
    apply (in_map (fun r => VStr (nth j r ""%string))).
    apply filter_In. split; [exact H1|apply String.eqb_refl]. }
  exists TypeError. apply process_results_err. unfold first_error.
  rewrite !Hsel by (simpl; tauto).
  cbn in Hl1. destruct Hl1 as [E|[E|[E|[]]]]; rewrite (Hnone _ E);
    repeat match goal with |- context [as_floats ?v] => destruct (as_floats v) end;
    reflexivity.
Qed.

Lemma read_csv_same_file (w w' : World) (df : DataFrame) :
  fs w csv_path = fs w' csv_path ->
  read_csv csv_path w = Ok df w -> read_csv csv_path w' = Ok df w'.
Proof.
  intros Hfs. unfold read_csv. rewrite Hfs.
  destruct (fs w' csv_path) as [[s|f]|]; [destruct (parse_csv s)|..];
    intro E; try discriminate; injection E; intros; subst; reflexivity.
Qed.

Lemma final_world_csv (w : World) (r p h : list value) (xr xp xh : list R) :
  fs (final_world w r p h xr xp xh) csv_path = fs w csv_path.
Proof. reflexivity. Qed.

(** Running the script a second time on what a completed run left behind
    completes again, prints the same four lines a second time, and writes
    the two images again with the same contents: the file system is
    unchanged by the second run. *)
Theorem rerun_same_effect (w : World) :
  fst (run w) = 0%nat ->
  fst (run (snd (run w))) = 0%nat /\
  (forall q, fs (snd (run (snd (run w)))) q = fs (snd (run w)) q) /\
  exists L, stdout (snd (run w)) = stdout w ++ L /\
            stdout (snd (run (snd (run w)))) = stdout (snd (run w)) ++ L.
Proof.
  intro H0.
  destruct (run_cases w) as [H1 | (df & r & p & h & xr & xp & xh & Hr1 & Er & Ep & Eh & -> & -> & -> & H1)];
    rewrite H1 in *; cbn [fst snd] in *; [discriminate|].
  set (W := final_world w (map VNum xr) (map VNum xp) (map VNum xh) xr xp xh).
  assert (Hr2 : read_csv csv_path W = Ok df W)
    by (apply (read_csv_same_file w W df); [symmetry; apply final_world_csv | exact Hr1]).
  rewrite (run_read_ok W df Hr2).
  rewrite (process_results_ok df W _ _ _ xr xp xh Er Ep Eh) by apply as_floats_map_VNum.
  cbn [fst snd]. split; [reflexivity|]. split.
  - intro q. unfold W, final_world. cbn [fs].
    destruct (String.eqb q box_path); [reflexivity|].
    destruct (String.eqb q bar_path); reflexivity.
  - exists (console_lines xr xp xh). split; reflexivity.
Qed.

End Script.

Arguments Ok {A}.
Arguments Err {A}.

(** ** witnesses: each theorem with hypotheses, applied where they hold *)

Lemma partition_is_filter_witness :
  index_of "strategy" (columns results_df) = Some 0%nat /\
  index_of "average_shots" (columns results_df) = Some 1%nat /\
  In "PDF"%string strategies /\
  (select results_df "PDF" =
   inr (map (fun r => nth 1 r (VStr ""))
            (filter (fun r => value_eq_str (nth 0 r (VStr "")) "PDF") (rows results_df)))
   /\ (forall v, value_eq_str v "PDF" = true <-> v = VStr "PDF")).
Proof.
  split; [reflexivity|split; [reflexivity|split; [simpl; tauto|]]].
  apply (partition_is_filter results_df "PDF" 0 1); [reflexivity|reflexivity|simpl; tauto].
Defined.

Lemma bar_heights_mean_popstd_witness :
  read_csv tokenize_example float_of_example csv_path world0 = Ok results_df world0 /\
  first_error results_df = None /\
  exists hs es,
    fs (snd (run tokenize_example float_of_example stdtr_half ndtr_half format_empty world0)) bar_path
      = Some (Image (mkFigure (10, 6)%nat [Bars strategies hs es 5]
                       "Average Shots to Win by Strategy" "Number of Shots")) /\
    (forall i lbl xs, nth_error strategies i = Some lbl ->
       select results_df lbl = inr (map VNum xs) -> xs <> [] ->
       nth_error hs i = Some (Fin (mean_spec xs)) /\
       nth_error es i = Some (Fin (pop_std_spec xs))).
Proof.
  split; [reflexivity|split; [reflexivity|]].
  apply (bar_heights_mean_popstd tokenize_example float_of_example stdtr_half ndtr_half format_empty
           world0 results_df); reflexivity.
Defined.


Lemma ttests_pooled_two_sided_witness :
  read_csv tokenize_example float_of_example csv_path world0 = Ok results_df world0 /\
  first_error results_df = None /\
  exists xr xp xh,
    select results_df "Random" = inr (map VNum xr) /\
    select results_df "PDF" = inr (map VNum xp) /\
    select results_df "Hunt and Target" = inr (map VNum xh) /\
    stdout (snd (run tokenize_example float_of_example stdtr_half ndtr_half format_empty world0)) = stdout world0 ++
      ["T-test results:";
       ttest_line format_empty "Random" "PDF" (ttest_ind stdtr_half ndtr_half true TwoSided xr xp);
       ttest_line format_empty "Random" "Hunt and Target"
         (ttest_ind stdtr_half ndtr_half true TwoSided xr xh);
       ttest_line format_empty "PDF" "Hunt and Target"
         (ttest_ind stdtr_half ndtr_half true TwoSided xp xh)]%string /\
    (forall a b, In (a, b) [(xr, xp); (xr, xh); (xp, xh)] ->
       (1 <= List.length a)%nat -> (1 <= List.length b)%nat ->
       (3 <= List.length a + List.length b)%nat -> 0 < pooled_var_spec a b ->
       ttest_ind stdtr_half ndtr_half true TwoSided a b
       = (Fin (pooled_t_spec a b), Fin (pooled_p_spec stdtr_half a b))).
Proof.
  split; [reflexivity|split; [reflexivity|]].
  apply (ttests_pooled_two_sided tokenize_example float_of_example stdtr_half ndtr_half format_empty
           world0 results_df); reflexivity.
Defined.

Lemma console_four_lines_witness :
  read_csv tokenize_example float_of_example csv_path world0 = Ok results_df world0 /\
  first_error results_df = None /\
  exists t1 p1 t2 p2 t3 p3,
    stdout (snd (run tokenize_example float_of_example stdtr_half ndtr_half format_empty world0)) = stdout world0 ++
      ["T-test results:";
       "Random vs PDF: t=" ++ format_empty (FmtF 4) t1 ++ ", p=" ++ format_empty (FmtE 4) p1;
       "Random vs Hunt and Target: t=" ++ format_empty (FmtF 4) t2
         ++ ", p=" ++ format_empty (FmtE 4) p2;
       "PDF vs Hunt and Target: t=" ++ format_empty (FmtF 4) t3
         ++ ", p=" ++ format_empty (FmtE 4) p3]%string.
Proof.
  split; [reflexivity|split; [reflexivity|]].
  apply (console_four_lines tokenize_example float_of_example stdtr_half ndtr_half format_empty
           world0 results_df); reflexivity.
Defined.



Lemma console_deterministic_witness :
  fs world0 csv_path = fs world1 csv_path /\
  (fst (run tokenize_example float_of_example stdtr_half ndtr_half format_empty world0)
   = fst (run tokenize_example float_of_example stdtr_half ndtr_half format_empty world1) /\
   exists L, stdout (snd (run tokenize_example float_of_example stdtr_half ndtr_half format_empty world0))
             = stdout world0 ++ L /\
           stdout (snd (run tokenize_example float_of_example stdtr_half ndtr_half format_empty world1))
             = stdout world1 ++ L).
Proof.
  split; [reflexivity|].
  apply (console_deterministic tokenize_example float_of_example stdtr_half ndtr_half format_empty world0 world1).
  reflexivity.
Defined.


Lemma box_plot_figure_witness :
  read_csv tokenize_example float_of_example csv_path world0 = Ok results_df world0 /\
  first_error results_df = None /\
  exists r p h,
    select results_df "Random" = inr r /\ select results_df "PDF" = inr p /\
    select results_df "Hunt and Target" = inr h /\
    fs (snd (run tokenize_example float_of_example stdtr_half ndtr_half format_empty world0)) box_path
      = Some (Image (mkFigure (10, 6)%nat [Boxes [r; p; h] strategies]
                       "Distribution of Shots to Win by Strategy" "Number of Shots")) /\
    cur_fig (snd (run tokenize_example float_of_example stdtr_half ndtr_half format_empty world0)) = None.
Proof.
  split; [reflexivity|split; [reflexivity|]].
  apply (box_plot_figure tokenize_example float_of_example stdtr_half ndtr_half format_empty world0 results_df);
    reflexivity.
Defined.

Lemma ttest_ind_short_nan_witness :
  ([1] = [] \/ [2] = [] \/ (List.length [1] = 1 /\ List.length [2] = 1)%nat \/
   (true = false /\ ((List.length [1] < 2)%nat \/ (List.length [2] < 2)%nat))) /\
  ttest_ind stdtr_half ndtr_half true TwoSided [1] [2] = (NaN, NaN).
Proof.
  split; [right; right; left; split; reflexivity|].
  apply (ttest_ind_short_nan stdtr_half ndtr_half true TwoSided [1] [2]).
  right. right. left. split; reflexivity.
Defined.

Lemma process_results_exception_witness :
  index_of "strategy" (columns (mkDataFrame [] [])) = None /\
  process_results stdtr_half ndtr_half format_empty (mkDataFrame [] []) world0
  = Err (KeyError "strategy") world0.
Proof.
  split; [reflexivity|].
  apply (proj1 (process_results_exception tokenize_example float_of_example stdtr_half ndtr_half format_empty
                  (mkDataFrame [] []) world0)).
  reflexivity.
Defined.

Lemma rows_order_irrelevant_witness :
  Permutation (rows results_df) (rev (rows results_df)) /\
  (forall lbl,
     (exists e, select (mkDataFrame (columns results_df) (rows results_df)) lbl = inl e /\
                select (mkDataFrame (columns results_df) (rev (rows results_df))) lbl = inl e) \/
     (exists v v', select (mkDataFrame (columns results_df) (rows results_df)) lbl = inr v /\
                   select (mkDataFrame (columns results_df) (rev (rows results_df))) lbl = inr v'
                   /\ Permutation v v')) /\
  ((exists e,
      process_results stdtr_half ndtr_half format_empty
        (mkDataFrame (columns results_df) (rows results_df)) world0 = Err e world0 /\
      process_results stdtr_half ndtr_half format_empty
        (mkDataFrame (columns results_df) (rev (rows results_df))) world0 = Err e world0) \/
   (exists W W',
      process_results stdtr_half ndtr_half format_empty
        (mkDataFrame (columns results_df) (rows results_df)) world0 = Ok tt W /\
      process_results stdtr_half ndtr_half format_empty
        (mkDataFrame (columns results_df) (rev (rows results_df))) world0 = Ok tt W' /\
      cur_fig W = None /\ cur_fig W' = None /\
      (forall q, q <> bar_path -> q <> box_path -> fs W q = fs W' q))).
Proof.
  split; [apply Permutation_rev|].
  apply (rows_order_irrelevant tokenize_example float_of_example stdtr_half ndtr_half format_empty).
  apply Permutation_rev.
Defined.

Lemma text_field_fails_witness :
  index_of "strategy" (fst other_raw) = Some 0%nat /\
  index_of "average_shots" (fst other_raw) = Some 1%nat /\
  (forall lbl, In lbl strategies -> float_of_example lbl = None) /\
  In ["Other"; "abc"]%string (snd other_raw) /\
  float_of_example (nth 1 ["Other"; "abc"]%string ""%string) = None /\
  In ["PDF"; "5"]%string (snd other_raw) /\ In (nth 0 ["PDF"; "5"]%string ""%string) strategies /\
  exists e, process_results stdtr_half ndtr_half format_empty
              (frame_of float_of_example other_raw) world0 = Err e world0.
Proof.
  assert (Hl : forall lbl, In lbl strategies -> float_of_example lbl = None).
  { intros lbl H. cbn in H. destruct H as [<-|[<-|[<-|[]]]]; reflexivity. }
  assert (H0 : In ["Other"; "abc"]%string (snd other_raw)) by (cbn; tauto).
  assert (H1 : In ["PDF"; "5"]%string (snd other_raw)) by (cbn; tauto).
  split; [reflexivity|split; [reflexivity|split; [exact Hl|split; [exact H0|]]]].
  split; [reflexivity|split; [exact H1|split; [cbn; tauto|]]].
  apply (text_field_fails tokenize_example float_of_example stdtr_half ndtr_half format_empty
           (fst other_raw) (snd other_raw) 0 1 ["Other"; "abc"]%string ["PDF"; "5"]%string);
    try reflexivity; try assumption; cbn; tauto.
Defined.

Lemma rerun_same_effect_witness :
  fst (run tokenize_example float_of_example stdtr_half ndtr_half format_empty world0) = 0%nat /\
  fst (run tokenize_example float_of_example stdtr_half ndtr_half format_empty
         (snd (run tokenize_example float_of_example stdtr_half ndtr_half format_empty world0))) = 0%nat /\
  (forall q, fs (snd (run tokenize_example float_of_example stdtr_half ndtr_half format_empty
                        (snd (run tokenize_example float_of_example stdtr_half ndtr_half format_empty world0)))) q
             = fs (snd (run tokenize_example float_of_example stdtr_half ndtr_half format_empty world0)) q) /\
  exists L,
    stdout (snd (run tokenize_example float_of_example stdtr_half ndtr_half format_empty world0))
      = stdout world0 ++ L /\
    stdout (snd (run tokenize_example float_of_example stdtr_half ndtr_half format_empty
                   (snd (run tokenize_example float_of_example stdtr_half ndtr_half format_empty world0))))
      = stdout (snd (run tokenize_example float_of_example stdtr_half ndtr_half format_empty world0)) ++ L.
Proof.
  assert (H0 : fst (run tokenize_example float_of_example stdtr_half ndtr_half format_empty world0) = 0%nat).
  { destruct (run_completes tokenize_example float_of_example stdtr_half ndtr_half format_empty world0 results_df
                eq_refl eq_refl) as (r & p & h & xr & xp & xh & H).
    destruct H as (_ & _ & _ & _ & _ & _ & ->). reflexivity. }
  split; [exact H0|].
  apply (rerun_same_effect tokenize_example float_of_example stdtr_half ndtr_half format_empty world0). exact H0.
Defined.

(** ** counterexamples *)



